(** * slog-gorm: the gorm logger backed by log/slog

    A shallow embedding of [logger.go] (package [slogGorm]) and the
    properties of its trace and free-form logging paths.

    The logger talks to three collaborators that live outside the package:
    the slog handler (the sink), the lazy SQL provider handed to [Trace],
    and the ambient [context.Context].  Every interaction with the first two
    is recorded as an [event], so that "the provider is invoked" and "a
    record is handed to the sink" are facts about the list of events a call
    produces.  A run-time panic (a method call on a nil interface) ends the
    call and is the [None] result of the effect monad [M]. *)

From Stdlib Require Import ZArith Ascii String List Bool Lia.
From stdpp Require Import base option list strings gmap fin_maps.

Set Warnings "-register-all".

Local Open Scope string_scope.
Local Open Scope Z_scope.

(** ** Go values *)

Module Go.

(** [error] values.  [gorm.ErrRecordNotFound] is a package-level variable
    built once by [errors.New]; comparing an error with it by [==] is
    identity of that one value, hence a constructor of its own.
    [ErrorString] is any other [errors.New]/[fmt.Errorf] value,
    [WrapError] a [fmt.Errorf] value with one [%w] operand, [JoinError] an
    error with [Unwrap() []error]. *)
Inductive error : Type :=
  | ErrRecordNotFound
  | ErrorString (msg : string)
  | WrapError (msg : string) (err : error)
  | JoinError (msg : string) (errs : list error).

(** The dynamic values ([any]) that reach the logger: attribute values,
    context values, format operands.  A nil interface is [None] of
    [option any]. *)
Inductive any : Type :=
  | GoString (s : string)
  | GoInt64 (n : Z)
  | GoBool (b : bool)
  | GoDuration (d : Z)
  | GoError (e : error)
  | GoAttr (key : string) (value : any).

(** [err.Error()] *)
Definition Error (e : error) : string :=
  match e with
  | ErrRecordNotFound => "record not found"
  | ErrorString msg => msg
  | WrapError msg _ => msg
  | JoinError msg _ => msg
  end.

(** [err == target] for the sentinel: only the sentinel itself. *)
Definition isSentinel (e : error) : bool :=
  match e with
  | ErrRecordNotFound => true
  | _ => false
  end.

(** [errors.Is(err, gorm.ErrRecordNotFound)]: the sentinel is the error
    itself or is reached by unwrapping. *)
Fixpoint errors_Is_RecordNotFound (err : error) : bool :=
  isSentinel err ||
  match err with
  | WrapError _ inner => errors_Is_RecordNotFound inner
  | JoinError _ errs => existsb errors_Is_RecordNotFound errs
  | _ => false
  end.

End Go.
Export Go.

(** ** Formatting: [strconv], [time.Duration.String], [fmt.Sprintf] *)

Module Fmt.

Definition digit (d : Z) : ascii := ascii_of_nat (48 + Z.to_nat d).

(** The digit loop of [fmtInt]: write [v mod 10] in front and go on with
    [v / 10] while it is positive. *)
Fixpoint digits (fuel : nat) (v : Z) (acc : string) : string :=
  match fuel with
  | O => acc
  | S fuel' =>
      if v <=? 0 then acc
      else digits fuel' (v / 10) (String (digit (v mod 10)) acc)
  end.

(** [fmtInt]: the decimal form of an unsigned value in front of [acc]. *)
Definition fmtInt (v : Z) (acc : string) : string :=
  if v =? 0 then String "0" acc
  else digits (S (Z.to_nat (Z.log2 v))) v acc.

(** [strconv.FormatInt(n, 10)] *)
Definition FormatInt (n : Z) : string :=
  if n <? 0 then String "-" (fmtInt (- n) "") else fmtInt n "".

(** [fmtFrac]: the [prec] low digits of [v] as a fraction in front of
    [acc], trailing zeros and a bare decimal point left out; returns the
    text and [v / 10^prec]. *)
Fixpoint fmtFrac_loop (prec : nat) (v : Z) (print : bool) (acc : string)
  : string * Z * bool :=
  match prec with
  | O => (acc, v, print)
  | S prec' =>
      let d := v mod 10 in
      let print' := print || negb (d =? 0) in
      let acc' := if print' then String (digit d) acc else acc in
      fmtFrac_loop prec' (v / 10) print' acc'
  end.

Definition fmtFrac (v : Z) (prec : nat) (acc : string) : string * Z :=
  let '(acc', v', print) := fmtFrac_loop prec v false acc in
  (if print then String "." acc' else acc', v').

Definition Microsecond : Z := 1000.
Definition Millisecond : Z := 1000000.
Definition Second : Z := 1000000000.

(** The body of [Duration.format] for the magnitude [u] of a duration in
    nanoseconds: "72h3m0.5s", with smaller units below one second. *)
Definition formatMagnitude (u : Z) : string :=
  if u <? Second then
    if u =? 0 then "0s"
    else if u <? Microsecond then
      let '(f, u') := fmtFrac u 0 "ns" in fmtInt u' f
    else if u <? Millisecond then
      let '(f, u') := fmtFrac u 3 (String "194" (String "181" "s")) in
      fmtInt u' f
    else
      let '(f, u') := fmtFrac u 6 "ms" in fmtInt u' f
  else
    let '(f, u1) := fmtFrac u 9 "s" in
    let w := fmtInt (u1 mod 60) f in
    let u2 := u1 / 60 in
    if 0 <? u2 then
      let w := fmtInt (u2 mod 60) (String "m" w) in
      let u3 := u2 / 60 in
      if 0 <? u3 then fmtInt u3 (String "h" w) else w
    else w.

(** [time.Duration.String]: the magnitude, with a minus sign in front of
    a negative duration. *)
Definition Duration_String (d : Z) : string :=
  if d <? 0 then String "-" (formatMagnitude (Z.abs d))
  else formatMagnitude (Z.abs d).

(** [reflect.TypeOf(arg).String()] *)
Definition typeName (a : any) : string :=
  match a with
  | GoString _ => "string"
  | GoInt64 _ => "int64"
  | GoBool _ => "bool"
  | GoDuration _ => "time.Duration"
  | GoError ErrRecordNotFound | GoError (ErrorString _) => "*errors.errorString"
  | GoError (WrapError _ _) => "*fmt.wrapError"
  | GoError (JoinError _ _) => "*errors.joinError"
  | GoAttr _ _ => "slog.Attr"
  end.

(** The [%v] form of a value.  Errors print through [Error()], durations
    and attributes through [String()]; [slog.Attr.String] is
    [key=value]. *)
Fixpoint formatV (a : any) : string :=
  match a with
  | GoString s => s
  | GoInt64 n => FormatInt n
  | GoBool b => if b then "true" else "false"
  | GoDuration d => Duration_String d
  | GoError e => Error e
  | GoAttr k v => k ++ "=" ++ formatV v
  end.

(** [%!verb(type=value)], what [fmt] prints for a verb the operand does
    not support. *)
Definition badVerb (verb : ascii) (a : any) : string :=
  "%!" ++ String verb ("(" ++ typeName a ++ "=" ++ formatV a ++ ")").

(** One operand under one verb: [%v] prints anything, [%s] strings and
    values with an [Error] or [String] method, [%d] integers, [%t]
    booleans.  Any other pairing is rendered as [badVerb]; that is what
    [fmt] prints for operands of a basic type (for a struct or pointer
    operand it would descend into the fields). *)
Definition formatVerb (verb : ascii) (a : any) : string :=
  if Ascii.eqb verb "v" then formatV a
  else if Ascii.eqb verb "s" then
    match a with
    | GoString _ | GoDuration _ | GoError _ | GoAttr _ _ => formatV a
    | _ => badVerb verb a
    end
  else if Ascii.eqb verb "d" then
    match a with
    | GoInt64 n | GoDuration n => FormatInt n
    | _ => badVerb verb a
    end
  else if Ascii.eqb verb "t" then
    match a with
    | GoBool _ => formatV a
    | _ => badVerb verb a
    end
  else badVerb verb a.

(** The operands the format did not use, as [type=value, ...]. *)
Fixpoint extraArgs (args : list any) : string :=
  match args with
  | [] => ""
  | [a] => typeName a ++ "=" ++ formatV a
  | a :: rest => typeName a ++ "=" ++ formatV a ++ ", " ++ extraArgs rest
  end.

(** What [Sprintf] appends once the format is used up: nothing, or
    [%!(EXTRA type=value, ...)] for the operands left over. *)
Definition extraSuffix (args : list any) : string :=
  match args with
  | [] => ""
  | _ => "%!(EXTRA " ++ extraArgs args ++ ")"
  end.

(** [fmt.Sprintf(format, args...)] for formats whose verbs carry no flag,
    width or precision: literal text is copied, [%%] is a percent sign,
    a verb consumes the next operand ([%!v(MISSING)] when none is left),
    a lone trailing [%] is [%!(NOVERB)], and operands left over are
    reported by [extraSuffix]. *)
Fixpoint Sprintf (format : string) (args : list any) : string :=
  match format with
  | EmptyString => extraSuffix args
  | String c rest =>
      if Ascii.eqb c "%" then
        match rest with
        | EmptyString => "%!(NOVERB)" ++ extraSuffix args
        | String verb rest' =>
            if Ascii.eqb verb "%" then String "%" (Sprintf rest' args)
            else
              match args with
              | [] => "%!" ++ String verb ("(MISSING)" ++ Sprintf rest' [])
              | a :: args' => formatVerb verb a ++ Sprintf rest' args'
              end
        end
      else String c (Sprintf rest args)
  end.

End Fmt.
Export Fmt.

(** ** [context.Context] *)

Module Ctx.

(** A non-nil context: [context.Background()] or a [context.WithValue]
    link.  A stored value may itself be a nil interface. *)
Inductive Context : Type :=
  | Background
  | WithValue (parent : Context) (key : any) (val : option any).

(** [key == k] for a string [k]: the stored key must be that string. *)
Definition keyIs (key : any) (k : string) : bool :=
  match key with
  | GoString s => String.eqb s k
  | _ => false
  end.

(** [ctx.Value(k)] for a string key: the innermost link with that key
    decides; [None] is the nil interface. *)
Fixpoint Value (ctx : Context) (k : string) : option any :=
  match ctx with
  | Background => None
  | WithValue parent key val =>
      if keyIs key k then val else Value parent k
  end.

End Ctx.
Export Ctx.

(** ** [log/slog]: levels, attributes, records, handlers *)

Module Slog.

Definition LevelDebug : Z := -4.
Definition LevelInfo : Z := 0.
Definition LevelWarn : Z := 4.
Definition LevelError : Z := 8.

(** An attribute of a record: key and value. *)
Definition Attr : Type := (string * any)%type.

(** The constructors [slog.Any], [slog.String], ... give a [slog.Attr];
    Trace keeps them in a [[]any]. *)
Definition Any (k : string) (v : any) : any := GoAttr k v.
Definition String_ (k : string) (s : string) : any := GoAttr k (GoString s).
Definition Duration (k : string) (d : Z) : any := GoAttr k (GoDuration d).
Definition Int64 (k : string) (n : Z) : any := GoAttr k (GoInt64 n).
Definition Bool (k : string) (b : bool) : any := GoAttr k (GoBool b).

Record Record_ : Type := mkRecord {
  Time : Z;
  Level : Z;
  Message : string;
  PC : Z;
  Attrs : list Attr
}.

(** [slog.NewRecord(t, level, msg, pc)] *)
Definition NewRecord (t level : Z) (msg : string) (pc : Z) : Record_ :=
  mkRecord t level msg pc [].

Definition badKey : string := "!BADKEY".

(** [argsToAttr], applied until the arguments are used up: an [Attr]
    stands for itself, a string is the key of the next argument, anything
    else gets the key [!BADKEY]. *)
Fixpoint argsToAttrs (args : list any) : list Attr :=
  match args with
  | [] => []
  | GoAttr k v :: rest => (k, v) :: argsToAttrs rest
  | GoString x :: rest =>
      match rest with
      | [] => [(badKey, GoString x)]
      | v :: rest' => (x, v) :: argsToAttrs rest'
      end
  | x :: rest => (badKey, x) :: argsToAttrs rest
  end.

(** [r.Add(args...)] *)
Definition Add (r : Record_) (args : list any) : Record_ :=
  mkRecord (Time r) (Level r) (Message r) (PC r)
           (Attrs r ++ argsToAttrs args)%list.

(** A [slog.Handler]: what its [Enabled] answers.  [Handle] is an effect
    (see [event]); its error result is dropped by the logger. *)
Record Handler : Type := mkHandler {
  Enabled : Context -> Z -> bool
}.

End Slog.
Export Slog.

(** ** Effects *)

Module Effect.

(** What a call does to its collaborators, in order. *)
Inductive event : Type :=
  | EvProvider                               (* fc() *)
  | EvEnabled (ctx : Context) (level : Z)    (* sloggerHandler.Enabled *)
  | EvHandle (ctx : Context) (r : Record_).  (* sloggerHandler.Handle *)

(** A computation: the events it produced and its result, [None] when it
    panicked. *)
Definition M (A : Type) : Type := (list event * option A)%type.

Definition ret {A} (a : A) : M A := ([], Some a).
Definition panic {A} : M A := ([], None).
Definition emit (e : event) : M unit := ([e], Some tt).

Definition bind {A B} (m : M A) (k : A -> M B) : M B :=
  match m with
  | (es, None) => (es, None)
  | (es, Some a) => let '(es', r) := k a in ((es ++ es')%list, r)
  end.

Definition events {A} (m : M A) : list event := fst m.
Definition panicked {A} (m : M A) : bool :=
  match snd m with None => true | Some _ => false end.

(** The records handed to the sink. *)
Definition handled (es : list event) : list Record_ :=
  omap (fun e => match e with EvHandle _ r => Some r | _ => None end) es.

(** How often the lazy provider ran. *)
Definition isProvider (e : event) : bool :=
  match e with EvProvider => true | _ => false end.

Definition providerCalls (es : list event) : nat :=
  length (List.filter isProvider es).


End Effect.
Export Effect.

Notation "'let*' x ':=' m 'in' k" := (bind m (fun x => k))
  (at level 10, x pattern, m at level 100, k at level 200,
   format "'let*'  x  ':='  m  'in' '//' k").

(** ** The logger (logger.go) *)

Module SlogGorm.

(** [LogType] is a string type; these are its three constants. *)
Definition ErrorLogType : string := "sql_error".
Definition SlowQueryLogType : string := "slow_query".
Definition DefaultLogType : string := "default".

Definition SourceField : string := "file".
Definition ErrorField : string := "error".
Definition QueryField : string := "query".
Definition DurationField : string := "duration".
Definition SlowQueryField : string := "slow_query".
Definition RowsField : string := "rows".

Record logger : Type := mkLogger {
  sloggerHandler : option Handler;      (* nil until New sets it *)
  ignoreTrace : bool;
  ignoreRecordNotFoundError : bool;
  traceAll : bool;
  slowThreshold : Z;
  logLevel : gmap string Z;
  contextKeys : gmap string string;     (* attribute name -> context key *)
  sourceField : string;
  errorField : string
}.

(** Field updates [l.field = value], the only thing an option does to
    the logger under construction. *)
Definition withHandler (h : Handler) (l : logger) : logger :=
  mkLogger (Some h) (ignoreTrace l) (ignoreRecordNotFoundError l)
           (traceAll l) (slowThreshold l) (logLevel l) (contextKeys l)
           (sourceField l) (errorField l).

Definition set_ignoreTrace (b : bool) (l : logger) : logger :=
  mkLogger (sloggerHandler l) b (ignoreRecordNotFoundError l)
           (traceAll l) (slowThreshold l) (logLevel l) (contextKeys l)
           (sourceField l) (errorField l).


Definition set_traceAll (b : bool) (l : logger) : logger :=
  mkLogger (sloggerHandler l) (ignoreTrace l) (ignoreRecordNotFoundError l)
           b (slowThreshold l) (logLevel l) (contextKeys l)
           (sourceField l) (errorField l).

Definition set_slowThreshold (threshold : Z) (l : logger) : logger :=
  mkLogger (sloggerHandler l) (ignoreTrace l) (ignoreRecordNotFoundError l)
           (traceAll l) threshold (logLevel l) (contextKeys l)
           (sourceField l) (errorField l).

Definition set_contextKey (attrName ctxKey : string) (l : logger) : logger :=
  mkLogger (sloggerHandler l) (ignoreTrace l) (ignoreRecordNotFoundError l)
           (traceAll l) (slowThreshold l) (logLevel l)
           (<[attrName := ctxKey]> (contextKeys l))
           (sourceField l) (errorField l).

Definition set_logLevel (t : string) (level : Z) (l : logger) : logger :=
  mkLogger (sloggerHandler l) (ignoreTrace l) (ignoreRecordNotFoundError l)
           (traceAll l) (slowThreshold l) (<[t := level]> (logLevel l))
           (contextKeys l) (sourceField l) (errorField l).

(** What the world outside the package answers during one call: the
    clock, the stack, gorm's call-site helper, slog's default handler. *)
Record World : Type := mkWorld {
  time_Now : Z;                       (* time.Now() *)
  time_Since : Z -> Z;                (* time.Since(begin) *)
  runtime_Callers : nat -> Z;         (* the pc runtime.Callers(skip, ..) stores *)
  utils_FileWithLineNum : string;     (* utils.FileWithLineNum() *)
  slog_Default_Handler : Handler      (* slog.Default().Handler() *)
}.

(** An [Option] is a function that updates the logger under
    construction. *)
Definition Option_ : Type := logger -> logger.

(** [New]: the defaults, then the options in order, then the default
    handler when none was set. *)
Definition New (w : World) (options : list Option_) : logger :=
  let l := mkLogger None false true false 0
             {[ ErrorLogType := LevelError;
                SlowQueryLogType := LevelWarn;
                DefaultLogType := LevelInfo ]}
             ∅ SourceField ErrorField in
  let l := foldl (fun l option => option l) l options in
  match sloggerHandler l with
  | None => withHandler (slog_Default_Handler w) l
  | Some _ => l
  end.

(** [l.logLevel[t]]: a missing key reads as the zero level. *)
Definition levelOf (l : logger) (t : string) : Z :=
  default 0 (logLevel l !! t).

(** [LogMode] returns the logger unchanged. *)
Definition LogMode (l : logger) (level : Z) : logger := l.

(** [ctx.Value(key)] on the interface value [ctx]: a nil interface
    panics. *)
Definition ctx_Value (ctx : option Context) (key : string) : M (option any) :=
  match ctx with
  | None => panic
  | Some c => ret (Value c key)
  end.

(** The loop of [appendContextAttributes] over the entries of
    [contextKeys]. *)
Fixpoint appendContextLoop (ctx : option Context)
    (entries : list (string * string)) (args : list any) : M (list any) :=
  match entries with
  | [] => ret args
  | (k, v) :: rest =>
      let* value := ctx_Value ctx v in
      match value with
      | Some x => appendContextLoop ctx rest (args ++ [Slog.Any k x])%list
      | None => appendContextLoop ctx rest args
      end
  end.

(** [appendContextAttributes(ctx, args)]; a nil [args] is the empty
    slice. *)
Definition appendContextAttributes (l : logger) (ctx : option Context)
    (args : list any) : M (list any) :=
  appendContextLoop ctx (map_to_list (contextKeys l)) args.

Section WithWorld.

Context (w : World).

(** [log]: adds context attributes and logs a message with the given
    slog level. *)
Definition log (l : logger) (ctx : option Context) (level : Z)
    (format : string) (args : list any) : M unit :=
  let ctx := match ctx with None => Background | Some c => c end in
  match sloggerHandler l with
  | None => panic
  | Some h =>
      let* _ := emit (EvEnabled ctx level) in
      if negb (Enabled h ctx level) then ret tt
      else
        let pc := runtime_Callers w 3 in
        let r := NewRecord (time_Now w) level (Sprintf format args) pc in
        let* attrs := appendContextAttributes l (Some ctx) [] in
        let r := Add r attrs in
        emit (EvHandle ctx r)
  end.

Definition Info (l : logger) (ctx : option Context) (format : string)
    (args : list any) : M unit :=
  log l ctx LevelInfo format args.

Definition Warn (l : logger) (ctx : option Context) (format : string)
    (args : list any) : M unit :=
  log l ctx LevelWarn format args.

Definition Error_ (l : logger) (ctx : option Context) (format : string)
    (args : list any) : M unit :=
  log l ctx LevelError format args.

(** The guard of the first case of the switch in [Trace]:
    [err != nil && (!errors.Is(err, gorm.ErrRecordNotFound) ||
    !l.ignoreRecordNotFoundError)].  When it holds the result is the
    non-nil error. *)
Definition errorCase (l : logger) (err : option error) : option error :=
  match err with
  | None => None
  | Some e =>
      if negb (errors_Is_RecordNotFound e) || negb (ignoreRecordNotFoundError l)
      then Some e
      else None
  end.

(** The guard of the second case:
    [l.slowThreshold != 0 && elapsed > l.slowThreshold]. *)
Definition slowCase (l : logger) (elapsed : Z) : bool :=
  negb (slowThreshold l =? 0) && (slowThreshold l <? elapsed).

(** [fc()]: the provider runs and yields its pair. *)
Definition callProvider (fc : string * Z) : M (string * Z) :=
  let* _ := emit EvProvider in ret fc.

(** [Trace]: logs sql message.  [fc] is what the lazy provider returns
    when it is called. *)
Definition Trace (l : logger) (ctx : option Context) (begin : Z)
    (fc : string * Z) (err : option error) : M unit :=
  if ignoreTrace l then ret tt
  else
    let elapsed := time_Since w begin in
    match errorCase l err with
    | Some e =>
        let* r := callProvider fc in
        let sql := fst r in
        let rows := snd r in
        let* attributes :=
          appendContextAttributes l ctx
            [ Slog.Any (errorField l) (GoError e);
              Slog.String_ QueryField sql;
              Slog.Duration DurationField elapsed;
              Slog.Int64 RowsField rows;
              Slog.String_ (sourceField l) (utils_FileWithLineNum w) ] in
        log l ctx (levelOf l ErrorLogType) (Go.Error e) attributes
    | None =>
        if slowCase l elapsed then
          let* r := callProvider fc in
          let sql := fst r in
          let rows := snd r in
          let* attributes :=
            appendContextAttributes l ctx
              [ Slog.Bool SlowQueryField true;
                Slog.String_ QueryField sql;
                Slog.Duration DurationField elapsed;
                Slog.Int64 RowsField rows;
                Slog.String_ (sourceField l) (utils_FileWithLineNum w) ] in
          log l ctx (levelOf l SlowQueryLogType)
              (Sprintf "slow sql query [%s >= %v]"
                       [GoDuration elapsed; GoDuration (slowThreshold l)])
              attributes
        else if traceAll l then
          let* r := callProvider fc in
          let sql := fst r in
          let rows := snd r in
          let* attributes :=
            appendContextAttributes l ctx
              [ Slog.String_ QueryField sql;
                Slog.Duration DurationField elapsed;
                Slog.Int64 RowsField rows;
                Slog.String_ (sourceField l) (utils_FileWithLineNum w) ] in
          log l ctx (levelOf l DefaultLogType)
              (Sprintf "SQL query executed [%s]" [GoDuration elapsed])
              attributes
        else ret tt
    end.

End WithWorld.

End SlogGorm.
Export SlogGorm.

(** ** Concrete collaborators, as in logger_test.go *)

Module Sample.

(** The [DummyHandler] of the tests: every level is enabled. *)
Definition dummyHandler : Handler := mkHandler (fun _ _ => true).

(** A handler with a minimum level, as [slog.NewTextHandler] with
    [HandlerOptions.Level]. *)
Definition levelHandler (min : Z) : Handler :=
  mkHandler (fun _ level => min <=? level).

(** A world whose clock reads [now]. *)
Definition worldAt (now : Z) : World :=
  mkWorld now (fun begin => now - begin) (fun _ => 0) "/app/db.go:42"
          (levelHandler LevelInfo).

Definition minute : Z := 60 * Second.

(** The clock of the examples: one minute after [begin = 0]. *)
Definition world : World := worldAt minute.

Definition selectQuery : string * Z := ("SELECT * FROM user", 1).
Definition awesomeError : error := ErrorString "awesome error".

Definition ctxWithVal : Context :=
  WithValue Background (GoString "ctxKey") (Some (GoString "ctxVal")).

(** [New(WithHandler(receiver))], the logger of most test cases. *)
Definition plain : logger := New world [withHandler dummyHandler].

(** A sink that enables nothing below level 42. *)
Definition quiet : logger := New world [withHandler (levelHandler 42)].

(** Trace-all on top of the defaults. *)
Definition tracingAll : logger :=
  New world [withHandler dummyHandler; set_traceAll true].


(** A slow threshold of one second and a sink that enables Error only. *)
Definition slowErrorOnly : logger :=
  New world [withHandler (levelHandler LevelError);
             set_slowThreshold Second].

(** Trace-all and a slow threshold of one second together. *)
Definition eager : logger :=
  New world [withHandler dummyHandler; set_traceAll true;
             set_slowThreshold Second].

(** Everything switched on, and tracing suppressed. *)
Definition suppressed : logger :=
  New world [withHandler dummyHandler; set_traceAll true;
             set_slowThreshold Second; set_contextKey "attrKey" "ctxKey";
             set_ignoreTrace true].



(** A slow threshold of one second, and tracing suppressed. *)
Definition slowSuppressed : logger :=
  New world [withHandler dummyHandler; set_slowThreshold Second;
             set_ignoreTrace true].

(** One registered context key. *)
Definition keyed : logger :=
  New world [withHandler dummyHandler; set_contextKey "attrKey" "ctxKey"].

(** A logger as the struct literal [logger{}] with only a sink and
    trace-all: its level map has no entry. *)
Definition bare : logger :=
  mkLogger (Some dummyHandler) false false true 0 ∅ ∅ "" "".

(** The sentinel wrapped once, as [fmt.Errorf("find user: %w", err)]. *)
Definition wrappedNotFound : error :=
  WrapError "find user: record not found" ErrRecordNotFound.

End Sample.

(** ** What one call does, in closed form *)

Module Closed.

(** The attributes the registered context keys contribute under a
    non-nil context, as [appendContextAttributes] appends them. *)
Definition contextAttrs (l : logger) (c : Context) : list any :=
  omap (fun kv => Slog.Any (fst kv) <$> Value c (snd kv))
       (map_to_list (contextKeys l)).

(** The context a call runs under once [log] has replaced a nil one. *)
Definition effectiveCtx (ctx : option Context) : Context :=
  default Background ctx.

(** Calling [ctx.Value] at all panics: a nil context and at least one
    registered key. *)
Definition nilLookup (l : logger) (ctx : option Context) : bool :=
  match ctx, map_to_list (contextKeys l) with
  | None, _ :: _ => true
  | _, _ => false
  end.

(** The record [log] builds. *)
Definition recordOf (w : World) (l : logger) (c : Context) (level : Z)
    (format : string) (args : list any) : Record_ :=
  mkRecord (time_Now w) level (Sprintf format args) (runtime_Callers w 3)
           (argsToAttrs (contextAttrs l c)).

(** [log] in closed form. *)
Definition logSpec (w : World) (l : logger) (ctx : option Context)
    (level : Z) (format : string) (args : list any) : M unit :=
  let c := effectiveCtx ctx in
  match sloggerHandler l with
  | None => (@nil event, @None unit)
  | Some h =>
      if Enabled h c level
      then ([EvEnabled c level; EvHandle c (recordOf w l c level format args)],
            Some tt)
      else ([EvEnabled c level], Some tt)
  end.

(** The category the switch of [Trace] selects, if any. *)
Definition category (l : logger) (elapsed : Z) (err : option error)
  : option string :=
  if ignoreTrace l then None
  else match errorCase l err with
       | Some _ => Some ErrorLogType
       | None =>
           if slowCase l elapsed then Some SlowQueryLogType
           else if traceAll l then Some DefaultLogType
           else None
       end.

(** The attributes a branch of [Trace] builds before the context ones. *)
Definition fixedAttrs (w : World) (l : logger) (elapsed : Z)
    (fc : string * Z) (err : option error) : list any :=
  let tail := [ Slog.String_ QueryField (fst fc);
                Slog.Duration DurationField elapsed;
                Slog.Int64 RowsField (snd fc);
                Slog.String_ (sourceField l) (utils_FileWithLineNum w) ] in
  match errorCase l err with
  | Some e => Slog.Any (errorField l) (GoError e) :: tail
  | None =>
      if slowCase l elapsed then Slog.Bool SlowQueryField true :: tail
      else tail
  end.

(** The text a branch of [Trace] passes to [log] as its format. *)
Definition template (l : logger) (elapsed : Z) (err : option error) : string :=
  match errorCase l err with
  | Some e => Go.Error e
  | None =>
      if slowCase l elapsed
      then Sprintf "slow sql query [%s >= %v]"
                   [GoDuration elapsed; GoDuration (slowThreshold l)]
      else Sprintf "SQL query executed [%s]" [GoDuration elapsed]
  end.

(** A text without a percent sign: as a format it has no verbs. *)
Fixpoint noPercent (s : string) : bool :=
  match s with
  | EmptyString => true
  | String c rest => negb (Ascii.eqb c "%") && noPercent rest
  end.




(** [Trace] in closed form. *)
Definition traceSpec (w : World) (l : logger) (ctx : option Context)
    (begin : Z) (fc : string * Z) (err : option error) : M unit :=
  let elapsed := time_Since w begin in
  match category l elapsed err with
  | None => ret tt
  | Some t =>
      if nilLookup l ctx then ([EvProvider], None)
      else
        let c := effectiveCtx ctx in
        let '(es, r) :=
          logSpec w l ctx (levelOf l t) (template l elapsed err)
                  (fixedAttrs w l elapsed fc err ++ contextAttrs l c)%list in
        (EvProvider :: es, r)
  end.

End Closed.
Export Closed.

(** ** The effect monad *)

Section MonadLaws.

Context {A B : Type}.

Lemma bind_ret_l (a : A) (k : A -> M B) : bind (ret a) k = k a.
Proof. unfold bind, ret. destruct (k a) as [es r]. reflexivity. Qed.

Lemma bind_panic (es : list event) (k : A -> M B) :
  bind (es, None) k = (es, None).
Proof. reflexivity. Qed.

Lemma bind_emit (e : event) (k : unit -> M B) :
  bind (emit e) k = (e :: fst (k tt), snd (k tt)).
Proof. unfold bind, emit. destruct (k tt) as [es r]. reflexivity. Qed.

Lemma bind_callProvider (fc : string * Z) (k : string * Z -> M B) :
  bind (callProvider fc) k = (EvProvider :: fst (k fc), snd (k fc)).
Proof. unfold callProvider, bind, emit, ret. simpl. by destruct (k fc). Qed.

End MonadLaws.

(** ** [appendContextAttributes] *)

Section AppendContext.

Lemma appendContextLoop_some (c : Context) (entries : list (string * string))
    (args : list any) :
  appendContextLoop (Some c) entries args =
  ret (args ++ omap (fun kv => Slog.Any (fst kv) <$> Value c (snd kv)) entries)%list.
Proof.
  revert args. induction entries as [|[k v] rest IH]; intros args; simpl.
  - by rewrite app_nil_r.
  - destruct (Value c v) as [x|]; simpl; rewrite IH; simpl;
      [by rewrite <- app_assoc | done].
Qed.

Lemma appendContextLoop_nil_ctx (entries : list (string * string))
    (args : list any) :
  appendContextLoop None entries args =
  match entries with [] => ret args | _ :: _ => panic end.
Proof. destruct entries as [|[k v] rest]; reflexivity. Qed.

Lemma appendContextAttributes_some (l : logger) (c : Context) (args : list any) :
  appendContextAttributes l (Some c) args = ret (args ++ contextAttrs l c)%list.
Proof. apply appendContextLoop_some. Qed.

Lemma contextAttrs_no_keys (l : logger) (c : Context) :
  map_to_list (contextKeys l) = [] -> contextAttrs l c = [].
Proof. unfold contextAttrs. by intros ->. Qed.

Lemma appendContextAttributes_spec (l : logger) (ctx : option Context)
    (args : list any) :
  appendContextAttributes l ctx args =
  if nilLookup l ctx then panic
  else ret (args ++ contextAttrs l (effectiveCtx ctx))%list.
Proof.
  destruct ctx as [c|]; simpl.
  - apply appendContextAttributes_some.
  - unfold appendContextAttributes, nilLookup.
    rewrite appendContextLoop_nil_ctx.
    destruct (map_to_list (contextKeys l)) as [|kv rest] eqn:E; [|done].
    by rewrite (contextAttrs_no_keys l _ E), app_nil_r.
Qed.

End AppendContext.

(** ** The closed forms are what the code computes *)

Section ClosedForms.

Context (w : World).

Lemma log_spec (l : logger) (ctx : option Context) (level : Z)
    (format : string) (args : list any) :
  log w l ctx level format args = logSpec w l ctx level format args.
Proof.
  unfold log, logSpec, effectiveCtx.
  destruct (sloggerHandler l) as [h|]; [|done].
  set (c := match ctx with Some c => c | None => Background end).
  replace (default Background ctx) with c by (by destruct ctx).
  rewrite bind_emit.
  destruct (Enabled h c level); simpl; [|done].
  by rewrite appendContextAttributes_some, bind_ret_l.
Qed.

Lemma Trace_spec (l : logger) (ctx : option Context) (begin : Z)
    (fc : string * Z) (err : option error) :
  Trace w l ctx begin fc err = traceSpec w l ctx begin fc err.
Proof.
  unfold Trace, traceSpec, category, template, fixedAttrs.
  destruct (ignoreTrace l); [done|].
  destruct (errorCase l err) as [e|];
    [|destruct (slowCase l (time_Since w begin));
      [|destruct (traceAll l); [|done]]];
    rewrite bind_callProvider, appendContextAttributes_spec;
    (destruct (nilLookup l ctx); [done|]);
    rewrite bind_ret_l, log_spec;
    match goal with |- context [logSpec ?a ?b ?c ?d ?e ?f] =>
      by destruct (logSpec a b c d e f) end.
Qed.

End ClosedForms.

(** ** What the event list of a call can look like *)

Section Shapes.

Context (w : World).


Lemma category_none_inv (l : logger) (elapsed : Z) (err : option error) :
  category l elapsed err = None ->
  ignoreTrace l = true \/
  (errorCase l err = None /\ slowCase l elapsed = false /\ traceAll l = false).
Proof.
  unfold category. destruct (ignoreTrace l); [by left|].
  destruct (errorCase l err); [done|].
  destruct (slowCase l elapsed); [done|].
  destruct (traceAll l); [done|]. by right.
Qed.

(** A record that [log] hands over is the one [recordOf] describes; the
    sink was set, had enabled the level, and the call did not panic. *)
Lemma logSpec_handled (l : logger) (ctx : option Context) (level : Z)
    (format : string) (args : list any) (r : Record_) :
  r ∈ handled (events (logSpec w l ctx level format args)) ->
  r = recordOf w l (effectiveCtx ctx) level format args /\
  snd (logSpec w l ctx level format args) = Some tt /\
  exists h, sloggerHandler l = Some h /\
            Enabled h (effectiveCtx ctx) level = true.
Proof.
  unfold logSpec. destruct (sloggerHandler l) as [h|]; simpl.
  - destruct (Enabled h (effectiveCtx ctx) level) eqn:E; simpl.
    + intros ->%list_elem_of_singleton. eauto.
    + by intros ?%elem_of_nil.
  - by intros ?%elem_of_nil.
Qed.

Lemma logSpec_counts (l : logger) (ctx : option Context) (level : Z)
    (format : string) (args : list any) :
  providerCalls (events (logSpec w l ctx level format args)) = 0%nat /\
  (length (handled (events (logSpec w l ctx level format args))) <= 1)%nat.
Proof.
  unfold logSpec, providerCalls, handled, events.
  destruct (sloggerHandler l) as [h|]; simpl; [|lia].
  destruct (Enabled h (effectiveCtx ctx) level); simpl; lia.
Qed.

(** The events of [Trace] when a category is selected and no lookup on a
    nil context happens: the provider, then the events of [log]. *)
Lemma Trace_selected (l : logger) (ctx : option Context) (begin : Z)
    (fc : string * Z) (err : option error) (t : string) :
  category l (time_Since w begin) err = Some t ->
  nilLookup l ctx = false ->
  events (Trace w l ctx begin fc err) =
    EvProvider ::
    events (logSpec w l ctx (levelOf l t)
              (template l (time_Since w begin) err)
              (fixedAttrs w l (time_Since w begin) fc err ++
               contextAttrs l (effectiveCtx ctx))%list) /\
  snd (Trace w l ctx begin fc err) =
    snd (logSpec w l ctx (levelOf l t)
              (template l (time_Since w begin) err)
              (fixedAttrs w l (time_Since w begin) fc err ++
               contextAttrs l (effectiveCtx ctx))%list).
Proof.
  intros Hc Hn. rewrite Trace_spec. unfold traceSpec. rewrite Hc, Hn.
  match goal with |- context [logSpec ?a ?b ?c ?d ?e ?f] =>
    by destruct (logSpec a b c d e f) end.
Qed.

Lemma Trace_nil_lookup (l : logger) (ctx : option Context) (begin : Z)
    (fc : string * Z) (err : option error) (t : string) :
  category l (time_Since w begin) err = Some t ->
  nilLookup l ctx = true ->
  Trace w l ctx begin fc err = ([EvProvider], None).
Proof.
  intros Hc Hn. rewrite Trace_spec. unfold traceSpec. by rewrite Hc, Hn.
Qed.

Lemma Trace_unselected (l : logger) (ctx : option Context) (begin : Z)
    (fc : string * Z) (err : option error) :
  category l (time_Since w begin) err = None ->
  Trace w l ctx begin fc err = ret tt.
Proof. intros Hc. rewrite Trace_spec. unfold traceSpec. by rewrite Hc. Qed.

(** Every record [Trace] hands over belongs to the selected category. *)
Lemma Trace_handled (l : logger) (ctx : option Context) (begin : Z)
    (fc : string * Z) (err : option error) (r : Record_) :
  r ∈ handled (events (Trace w l ctx begin fc err)) ->
  exists t,
    category l (time_Since w begin) err = Some t /\
    nilLookup l ctx = false /\
    r = recordOf w l (effectiveCtx ctx) (levelOf l t)
          (template l (time_Since w begin) err)
          (fixedAttrs w l (time_Since w begin) fc err ++
           contextAttrs l (effectiveCtx ctx))%list /\
    snd (Trace w l ctx begin fc err) = Some tt.
Proof.
  destruct (category l (time_Since w begin) err) as [t|] eqn:Hc.
  - destruct (nilLookup l ctx) eqn:Hn.
    + rewrite (Trace_nil_lookup _ _ _ _ _ _ Hc Hn). simpl.
      by intros ?%elem_of_nil.
    + destruct (Trace_selected _ _ begin fc _ _ Hc Hn) as [-> ->]. simpl.
      intros (-> & Hs & _)%logSpec_handled. by exists t.
  - rewrite (Trace_unselected _ _ _ _ _ Hc). by intros ?%elem_of_nil.
Qed.

Lemma Trace_counts (l : logger) (ctx : option Context) (begin : Z)
    (fc : string * Z) (err : option error) :
  providerCalls (events (Trace w l ctx begin fc err)) =
    match category l (time_Since w begin) err with
    | Some _ => 1%nat
    | None => 0%nat
    end /\
  (length (handled (events (Trace w l ctx begin fc err))) <= 1)%nat.
Proof.
  destruct (category l (time_Since w begin) err) as [t|] eqn:Hc.
  - destruct (nilLookup l ctx) eqn:Hn.
    + rewrite (Trace_nil_lookup _ _ _ _ _ _ Hc Hn).
      unfold providerCalls, handled, events. simpl. lia.
    + destruct (Trace_selected _ _ begin fc _ _ Hc Hn) as [-> _].
      match goal with |- context [logSpec ?a ?b ?c ?d ?e ?f] =>
        destruct (logSpec_counts b c d e f) as [Hp Hh] end.
      unfold providerCalls in *. simpl. rewrite Hp. split; [done|].
      exact Hh.
  - rewrite (Trace_unselected _ _ _ _ _ Hc).
    unfold providerCalls, handled, events. simpl. lia.
Qed.

End Shapes.

(** ** Global suppression *)

Import Sample.

(** C8.  With global trace suppression enabled, [Trace] does nothing at
    all, for every context (nil included), error, start time, provider
    and threshold: no provider call, no enabled check, no record, no
    panic. *)
Theorem Trace_suppressed (w : World) (l : logger) (ctx : option Context)
    (begin : Z) (fc : string * Z) (err : option error) :
  ignoreTrace l = true ->
  providerCalls (events (Trace w l ctx begin fc err)) = 0%nat /\
  handled (events (Trace w l ctx begin fc err)) = [] /\
  events (Trace w l ctx begin fc err) = [] /\
  panicked (Trace w l ctx begin fc err) = false.
Proof. intros H. unfold Trace. rewrite H. by repeat split. Qed.

Lemma Trace_suppressed_witness :
  ignoreTrace suppressed = true /\
  providerCalls (events (Trace world suppressed None 0 selectQuery
                           (Some awesomeError))) = 0%nat /\
  handled (events (Trace world suppressed None 0 selectQuery
                     (Some awesomeError))) = [].
Proof.
  split; [reflexivity|].
  destruct (Trace_suppressed world suppressed None 0 selectQuery
              (Some awesomeError)) as (Hp & Hh & _); [reflexivity|].
  exact (conj Hp Hh).
Defined.

(** ** Categories *)

Section Priority.

Context (w : World).



End Priority.



(** ** The lazy provider *)

(** C4, as the code has it.  The provider runs at most once, and it runs
    exactly when the switch selects a category, whether or not the sink
    then takes a record; when no category is selected it does not run
    and nothing else happens either. *)
Theorem Trace_provider_calls (w : World) (l : logger)
    (ctx : option Context) (begin : Z) (fc : string * Z)
    (err : option error) :
  (providerCalls (events (Trace w l ctx begin fc err)) <= 1)%nat /\
  (providerCalls (events (Trace w l ctx begin fc err)) = 1%nat <->
   is_Some (category l (time_Since w begin) err)) /\
  (category l (time_Since w begin) err = None ->
   events (Trace w l ctx begin fc err) = [] /\
   panicked (Trace w l ctx begin fc err) = false).
Proof.
  destruct (Trace_counts w l ctx begin fc err) as [Hp _].
  destruct (category l (time_Since w begin) err) as [t|] eqn:Hc.
  - rewrite Hp. split; [lia|]. split; [|done]. split; [by eexists|done].
  - rewrite Hp. split; [lia|]. split.
    + split; [done|]. by intros [? ?].
    + intros _. assert (Hc' := Hc).
      apply (Trace_unselected w l ctx begin fc err) in Hc'. by rewrite Hc'.
Qed.

Lemma Trace_provider_calls_witness :
  category plain (time_Since world 0) None = None /\
  events (Trace world plain (Some Background) 0 selectQuery None) = [] /\
  providerCalls
    (events (Trace world quiet (Some Background) 0 selectQuery
               (Some awesomeError))) = 1%nat.
Proof.
  split; [reflexivity|].
  split.
  - destruct (Trace_provider_calls world plain (Some Background) 0
                selectQuery None) as (_ & _ & H).
    exact (proj1 (H eq_refl)).
  - destruct (Trace_provider_calls world quiet (Some Background) 0
                selectQuery (Some awesomeError)) as (_ & H & _).
    apply H. by eexists.
Defined.

(** C4 as stated fails: with a one-second threshold, a minute elapsed and
    a sink that enables Error only, the slow-query branch calls the
    provider and yet no event is emitted. *)
Lemma Trace_provider_without_event :
  providerCalls
    (events (Trace world slowErrorOnly (Some Background) 0 selectQuery None))
    = 1%nat /\
  handled
    (events (Trace world slowErrorOnly (Some Background) 0 selectQuery None))
    = [].
Proof. split; reflexivity. Qed.

(** ** The sink's enabled check *)




(** ** Formats without verbs *)

Section Formatting.


(** With no verb in the format, [Sprintf] copies it and reports every
    operand as extra. *)
Lemma Sprintf_noPercent (format : string) (args : list any) :
  noPercent format = true ->
  Sprintf format args = format ++ extraSuffix args.
Proof.
  induction format as [|c rest IH]; simpl; [done|].
  intros [Hc Hrest]%andb_prop.
  apply negb_true_iff in Hc. rewrite Hc. by rewrite IH.
Qed.












End Formatting.

(** ** Records that reach the sink *)

Section Records.

Context (w : World).


(** An error the filter drops is no error to the rest of the switch. *)
Lemma Trace_filtered_as_nil (l : logger) (ctx : option Context) (begin : Z)
    (fc : string * Z) (err : option error) :
  errorCase l err = None ->
  Trace w l ctx begin fc err = Trace w l ctx begin fc None.
Proof. intros He. unfold Trace. by rewrite He. Qed.


(** The free-form path replaces a nil context before it does anything
    with it. *)
Lemma log_nil_context (l : logger) (level : Z) (format : string)
    (args : list any) :
  log w l None level format args = log w l (Some Background) level format args.
Proof. reflexivity. Qed.



(** With a sink set and a non-nil context neither path panics. *)
Lemma log_no_panic (l : logger) (h : Handler) (ctx : option Context)
    (level : Z) (format : string) (args : list any) :
  sloggerHandler l = Some h ->
  panicked (log w l ctx level format args) = false.
Proof.
  intros Hh. rewrite log_spec. unfold logSpec, panicked. rewrite Hh.
  by destruct (Enabled h (effectiveCtx ctx) level).
Qed.

Lemma Trace_no_panic (l : logger) (h : Handler) (c : Context) (begin : Z)
    (fc : string * Z) (err : option error) :
  sloggerHandler l = Some h ->
  panicked (Trace w l (Some c) begin fc err) = false.
Proof.
  intros Hh. rewrite Trace_spec. unfold traceSpec, logSpec, panicked.
  rewrite Hh. destruct (category l (time_Since w begin) err) as [t|]; [|done].
  simpl. by destruct (Enabled h c (levelOf l t)).
Qed.

(** Without registered keys [Trace] never touches the context itself,
    and a nil context is as good as the empty one. *)
Lemma Trace_nil_context_no_keys (l : logger) (begin : Z) (fc : string * Z)
    (err : option error) :
  contextKeys l = ∅ ->
  Trace w l None begin fc err = Trace w l (Some Background) begin fc err.
Proof.
  intros Hk. rewrite !Trace_spec. unfold traceSpec, nilLookup.
  by rewrite Hk, map_to_list_empty.
Qed.

(** Whatever the branch, the attributes of a record [Trace] hands over
    are the context attributes and nothing else: the attributes the
    branch built went into the message. *)
Lemma Trace_record_attrs (l : logger) (ctx : option Context) (begin : Z)
    (fc : string * Z) (err : option error) (r : Record_) :
  r ∈ handled (events (Trace w l ctx begin fc err)) ->
  Attrs r = argsToAttrs (contextAttrs l (effectiveCtx ctx)) /\
  Message r =
    Sprintf (template l (time_Since w begin) err)
            (fixedAttrs w l (time_Since w begin) fc err ++
             contextAttrs l (effectiveCtx ctx))%list.
Proof. by intros (t & _ & _ & -> & _)%Trace_handled. Qed.


End Records.

(** ** The record-not-found filter *)




(** C10, as the code has it.  The filter asks [errors.Is]: an error that
    has the sentinel anywhere in its chain is dropped by the error guard
    when the ignore flag is true, and [Trace] then does exactly what it
    does for the bare sentinel and for no error.  In particular no
    record of the Error category is produced, and nothing at all happens
    unless the slow-query or the trace-all branch matches. *)
Theorem Trace_wrapped_not_found (w : World) (l : logger)
    (ctx : option Context) (begin : Z) (fc : string * Z) (e : error) :
  errors_Is_RecordNotFound e = true ->
  ignoreRecordNotFoundError l = true ->
  Trace w l ctx begin fc (Some e) =
    Trace w l ctx begin fc (Some ErrRecordNotFound) /\
  Trace w l ctx begin fc (Some e) = Trace w l ctx begin fc None /\
  category l (time_Since w begin) (Some e) <> Some ErrorLogType /\
  (slowCase l (time_Since w begin) = false -> traceAll l = false ->
     events (Trace w l ctx begin fc (Some e)) = [] /\
     panicked (Trace w l ctx begin fc (Some e)) = false).
Proof.
  intros His Hi.
  assert (errorCase l (Some e) = None) as He
    by (simpl; by rewrite His, Hi).
  assert (errorCase l (Some ErrRecordNotFound) = None) as Hs
    by (simpl; by rewrite Hi).
  split.
  { rewrite (Trace_filtered_as_nil w l ctx begin fc _ He).
    by rewrite (Trace_filtered_as_nil w l ctx begin fc _ Hs). }
  split; [by apply Trace_filtered_as_nil|].
  split.
  { unfold category. rewrite He.
    destruct (ignoreTrace l); [done|].
    destruct (slowCase l (time_Since w begin)); [done|].
    by destruct (traceAll l). }
  intros Hslow Hall. rewrite Trace_unselected; [done|].
  unfold category. rewrite He, Hslow, Hall. by destruct (ignoreTrace l).
Qed.

Lemma Trace_wrapped_not_found_witness :
  errors_Is_RecordNotFound wrappedNotFound = true /\
  wrappedNotFound <> ErrRecordNotFound /\
  ignoreRecordNotFoundError plain = true /\
  events (Trace world plain (Some Background) 0 selectQuery
            (Some wrappedNotFound)) = [].
Proof.
  split; [reflexivity|]. split; [discriminate|]. split; [reflexivity|].
  destruct (Trace_wrapped_not_found world plain (Some Background) 0
              selectQuery wrappedNotFound eq_refl eq_refl)
    as (_ & _ & _ & H).
  exact (proj1 (H eq_refl eq_refl)).
Defined.

(** C10 as stated fails: the wrapped sentinel is filtered, the ignore
    flag is true, and with trace-all on an event is emitted all the
    same, as it is for the bare sentinel. *)
Lemma Trace_wrapped_not_found_still_traced :
  errors_Is_RecordNotFound wrappedNotFound = true /\
  ignoreRecordNotFoundError tracingAll = true /\
  length
    (handled (events (Trace world tracingAll (Some Background) 0 selectQuery
                        (Some wrappedNotFound)))) = 1%nat.
Proof. repeat split; reflexivity. Qed.

(** ** The slow-query branch *)




(** ** Context attributes *)



(** ** Where the code departs from its own intent *)

(** C1.  The error branch builds the attributes error, query, duration,
    rows and file, but passes them to [log] as operands of the message
    format.  For the error "awesome error" on the test logger, whose
    sink enables every level, the one record that reaches the sink is at
    level Error, has no attribute at all, and its message is the error
    text followed by the unused operands, not the error text. *)
Theorem Trace_error_attributes_lost :
  exists r,
    handled (events (Trace world plain (Some Background) 0 selectQuery
                       (Some awesomeError))) = [r] /\
    Level r = LevelError /\
    Attrs r = [] /\
    Message r =
      "awesome error%!(EXTRA slog.Attr=error=awesome error, " ++
      "slog.Attr=query=SELECT * FROM user, slog.Attr=duration=1m0s, " ++
      "slog.Attr=rows=1, slog.Attr=file=/app/db.go:42)" /\
    Message r <> Go.Error awesomeError.
Proof.
  eexists. split; [reflexivity|].
  split; [reflexivity|]. split; [reflexivity|]. split; [reflexivity|].
  discriminate.
Qed.

(** C3.  [Trace] looks the registered keys up in the context before
    [log] has replaced a nil context: with one registered key and a nil
    context the call panics right after the provider ran, while the same
    call under the empty context hands over a record.  The free-form
    path does treat nil as the empty context. *)
Theorem Trace_nil_context_panics :
  Trace world keyed None 0 selectQuery (Some awesomeError)
    = ([EvProvider], None) /\
  panicked (Trace world keyed (Some Background) 0 selectQuery
              (Some awesomeError)) = false /\
  length (handled (events (Trace world keyed (Some Background) 0 selectQuery
                             (Some awesomeError)))) = 1%nat /\
  Error_ world keyed None "awesome message" [] =
    Error_ world keyed (Some Background) "awesome message" [].
Proof. repeat split; reflexivity. Qed.

(** ** The examples of the tests, evaluated *)

Example Duration_String_examples :
  Duration_String (2 * Second) = "2s" /\
  Duration_String minute = "1m0s" /\
  Duration_String 1500000 = "1.5ms" /\
  Duration_String (- 3723500000000) = "-1h2m3.5s" /\
  Duration_String 0 = "0s".
Proof. repeat split; reflexivity. Qed.

Example Sprintf_examples :
  Sprintf "hi" [GoString "guys"] = "hi%!(EXTRA string=guys)" /\
  Sprintf "%d%% of %s" [GoInt64 50; GoString "rows"] = "50% of rows" /\
  Sprintf "%s and %v" [GoString "one"] = "one and %!v(MISSING)".
Proof. repeat split; reflexivity. Qed.

Example Trace_without_trace_all :
  Trace world plain (Some Background) 0 selectQuery None = ret tt.
Proof. reflexivity. Qed.

Example Trace_with_context_value :
  handled (events (Trace world (set_traceAll true keyed) (Some ctxWithVal)
                     0 selectQuery None)) =
  [ mkRecord minute LevelInfo
      ("SQL query executed [1m0s]%!(EXTRA slog.Attr=query=SELECT * FROM user, "
       ++ "slog.Attr=duration=1m0s, slog.Attr=rows=1, " ++
       "slog.Attr=file=/app/db.go:42, slog.Attr=attrKey=ctxVal)")
      0 [("attrKey", GoString "ctxVal")] ].
Proof. reflexivity. Qed.

Example Info_below_enabled_level :
  Info world (New world [withHandler (levelHandler LevelWarn)]) None
       "an info message" [] = ([EvEnabled Background LevelInfo], Some tt).
Proof. reflexivity. Qed.

(** * Further properties of logger.go *)

(** ** [appendContextAttributes] *)

Section ContextAttributes.




End ContextAttributes.


(** ** [New] *)

Section NewLogger.

Lemma New_handler (w : World) (options : list Option_) :
  is_Some (sloggerHandler (New w options)).
Proof.
  unfold New.
  match goal with |- context [foldl ?f ?a options] =>
    destruct (sloggerHandler (foldl f a options)) as [h|] eqn:E end;
    by eexists.
Qed.

End NewLogger.

(** X2.  Whatever the options do, the logger [New] returns has a sink:
    the default handler stands in when the options left none.  So on a
    logger built by [New] the free-form entry points never panic, for
    any context, nil included, and [Trace] never panics under a non-nil
    context. *)
Theorem New_never_panics (w w' : World) (options : list Option_) :
  is_Some (sloggerHandler (New w options)) /\
  (forall ctx level format args,
     panicked (log w' (New w options) ctx level format args) = false) /\
  (forall c begin fc err,
     panicked (Trace w' (New w options) (Some c) begin fc err) = false).
Proof.
  destruct (New_handler w options) as [h Hh].
  split; [by exists h|]. split.
  - intros. by apply (log_no_panic w' _ h).
  - intros. by apply (Trace_no_panic w' _ h).
Qed.

(** X3.  With the defaults of [New] (no option but, possibly, the
    sink) a query without error, or with an error that has the
    record-not-found sentinel in its chain, is not traced at all: the
    provider is not called, the sink is not asked, nothing panics,
    whatever the context (nil included) and the elapsed time. *)
Theorem New_defaults_silent (w w' : World) (options : list Option_)
    (ctx : option Context) (begin : Z) (fc : string * Z)
    (err : option error) :
  options = [] \/ (exists h, options = [withHandler h]) ->
  err = None \/ (exists e, err = Some e /\ errors_Is_RecordNotFound e = true) ->
  Trace w' (New w options) ctx begin fc err = ret tt.
Proof.
  intros Hopt Herr. apply Trace_unselected.
  assert (errorCase (New w options) err = None) as He.
  { destruct Herr as [->|(e & -> & His)]; [done|].
    simpl. rewrite His. by destruct Hopt as [->|[h ->]]. }
  unfold category. rewrite He. by destruct Hopt as [->|[h ->]].
Qed.

Lemma New_defaults_silent_witness :
  Trace world (New world [withHandler dummyHandler]) None 0 selectQuery
        (Some wrappedNotFound) = ret tt.
Proof.
  apply New_defaults_silent.
  - right. by exists dummyHandler.
  - right. exists wrappedNotFound. split; reflexivity.
Defined.

(** X4.  With the defaults of [New] and a sink [h], an error without the
    sentinel in its chain is traced at level Error, under any context,
    nil included: the provider is called, the sink is asked about level
    Error, and exactly when it enables that level one record at level
    Error is handed to it. *)
Theorem New_defaults_error_level (w w' : World) (h : Handler)
    (ctx : option Context) (begin : Z) (fc : string * Z) (e : error) :
  errors_Is_RecordNotFound e = false ->
  exists r,
    Level r = LevelError /\
    Trace w' (New w [withHandler h]) ctx begin fc (Some e) =
      (EvProvider :: EvEnabled (effectiveCtx ctx) LevelError ::
         (if Enabled h (effectiveCtx ctx) LevelError
          then [EvHandle (effectiveCtx ctx) r] else []),
       Some tt).
Proof.
  intros His. rewrite Trace_spec. unfold traceSpec, category.
  assert (errorCase (New w [withHandler h]) (Some e) = Some e) as He
    by (simpl; by rewrite His).
  rewrite He.
  change (ignoreTrace (New w [withHandler h])) with false.
  change (nilLookup (New w [withHandler h]) ctx)
    with (match ctx with
          | None => match map_to_list (∅ : gmap string string) with
                    | [] => false | _ :: _ => true end
          | Some _ => false
          end).
  rewrite map_to_list_empty.
  replace (match ctx with None => false | Some _ => false end) with false
    by (by destruct ctx).
  unfold logSpec.
  change (sloggerHandler (New w [withHandler h])) with (Some h).
  change (levelOf (New w [withHandler h]) ErrorLogType) with LevelError.
  eexists. split; [|by destruct (Enabled h (effectiveCtx ctx) LevelError)].
  reflexivity.
Qed.

Lemma New_defaults_error_level_witness :
  errors_Is_RecordNotFound awesomeError = false /\
  events (Trace world (New world [withHandler (levelHandler 42)]) None 0
            selectQuery (Some awesomeError))
    = [EvProvider; EvEnabled Background LevelError].
Proof.
  split; [reflexivity|].
  destruct (New_defaults_error_level world world (levelHandler 42) None 0
              selectQuery awesomeError eq_refl) as (r & _ & ->).
  reflexivity.
Defined.

(** ** The free-form entry points *)

Section FreeForm.

Context (w : World).

Lemma log_enabled_record (l : logger) (h : Handler) (ctx : option Context)
    (level : Z) (format : string) (args : list any) :
  sloggerHandler l = Some h ->
  handled (events (log w l ctx level format args)) =
    if Enabled h (effectiveCtx ctx) level
    then [recordOf w l (effectiveCtx ctx) level format args]
    else [].
Proof.
  intros Hh. rewrite log_spec. unfold logSpec. rewrite Hh.
  by destruct (Enabled h (effectiveCtx ctx) level).
Qed.

Lemma append_empty (s : string) : s ++ "" = s.
Proof.
  induction s as [|c s IH]; [done|].
  change (String c (s ++ "") = String c s). by rewrite IH.
Qed.

Lemma Sprintf_verbatim (format : string) :
  noPercent format = true -> Sprintf format [] = format.
Proof.
  intros Hf. rewrite Sprintf_noPercent by done. apply append_empty.
Qed.

End FreeForm.

(** X5.  [Info], [Warn] and [Error] log at the slog levels Info, Warn
    and Error.  Called with a text that has no percent sign and no
    operands, on a logger with a sink, each hands over exactly one
    record, whose message is that text and whose level is the entry
    point's, when the sink enables the level, and no record when it
    does not. *)
Theorem free_form_verbatim (w : World) (l : logger) (h : Handler)
    (ctx : option Context) (format : string)
    (entry : logger -> option Context -> string -> list any -> M unit)
    (level : Z) :
  sloggerHandler l = Some h ->
  noPercent format = true ->
  (entry, level) ∈ [(Info w, LevelInfo); (Warn w, LevelWarn);
                    (Error_ w, LevelError)] ->
  if Enabled h (effectiveCtx ctx) level
  then exists r,
         handled (events (entry l ctx format [])) = [r] /\
         Level r = level /\ Message r = format
  else handled (events (entry l ctx format [])) = [].
Proof.
  intros Hh Hf Hin.
  assert (entry l ctx format [] = log w l ctx level format []) as ->.
  { repeat (apply elem_of_cons in Hin as [Hin|Hin];
            [by injection Hin as -> ->|]).
    by apply elem_of_nil in Hin. }
  rewrite (log_enabled_record w l h) by done.
  destruct (Enabled h (effectiveCtx ctx) level); [|done].
  eexists. split; [done|]. split; [done|]. by apply Sprintf_verbatim.
Qed.

Lemma free_form_verbatim_witness :
  exists r,
    handled (events (Warn world plain None "a warn message" [])) = [r] /\
    Level r = LevelWarn /\ Message r = "a warn message".
Proof.
  apply (free_form_verbatim world plain dummyHandler None "a warn message"
           (Warn world) LevelWarn eq_refl eq_refl).
  apply elem_of_cons. right. apply elem_of_cons. by left.
Defined.



(** X7.  The free-form path reads only the sink and the registered
    context keys of the logger.  Two loggers that agree on these log
    alike, whatever their trace settings: suppressing traces, trace-all,
    the slow threshold, the not-found filter and the per-category levels
    have no effect on [Info], [Warn] and [Error]. *)
Theorem free_form_ignores_trace_settings (w : World) (l l' : logger)
    (ctx : option Context) (level : Z) (format : string) (args : list any) :
  sloggerHandler l = sloggerHandler l' ->
  contextKeys l = contextKeys l' ->
  log w l ctx level format args = log w l' ctx level format args.
Proof.
  intros Hh Hk. rewrite !log_spec.
  unfold logSpec, recordOf, contextAttrs. by rewrite Hh, Hk.
Qed.

Lemma free_form_ignores_trace_settings_witness :
  ignoreTrace slowSuppressed = true /\
  Info world slowSuppressed None "an info message" [] =
  Info world plain None "an info message" [].
Proof.
  split; [reflexivity|].
  exact (free_form_ignores_trace_settings world slowSuppressed plain None
           LevelInfo "an info message" [] eq_refl eq_refl).
Defined.

(** ** When a call panics *)

(** X8.  [Trace] panics exactly when a category is selected and either a
    registered key has to be looked up in a nil context or the logger
    has no sink; by then the provider has run and nothing has reached
    the sink.  The free-form path panics exactly when the logger has no
    sink, before doing anything. *)
Theorem panic_conditions (w : World) (l : logger) (ctx : option Context) :
  (forall begin fc err,
     (panicked (Trace w l ctx begin fc err) = true <->
      is_Some (category l (time_Since w begin) err) /\
      (nilLookup l ctx = true \/ sloggerHandler l = None)) /\
     (panicked (Trace w l ctx begin fc err) = true ->
      events (Trace w l ctx begin fc err) = [EvProvider])) /\
  (forall level format args,
     (panicked (log w l ctx level format args) = true <->
      sloggerHandler l = None) /\
     (panicked (log w l ctx level format args) = true ->
      events (log w l ctx level format args) = [])).
Proof.
  split.
  - intros begin fc err. rewrite Trace_spec.
    unfold traceSpec, logSpec, panicked.
    destruct (category l (time_Since w begin) err) as [t|]; simpl.
    + destruct (nilLookup l ctx); simpl.
      { split; [|done]. split; [|done]. intros _. split; [by eexists|by left]. }
      destruct (sloggerHandler l) as [h|]; simpl.
      * destruct (Enabled h (effectiveCtx ctx) (levelOf l t)); simpl;
          (split; [|done]); (split; [done|]); by intros [_ [?|?]].
      * split; [|done]. split; [|done].
        intros _. split; [by eexists|by right].
    + split; [|done]. split; [done|]. by intros [[? ?] _].
  - intros level format args. rewrite log_spec. unfold logSpec, panicked.
    destruct (sloggerHandler l) as [h|]; simpl; [|done].
    by destruct (Enabled h (effectiveCtx ctx) level).
Qed.

(** ** The default and the error branch *)

Section Branches.



End Branches.





(** ** Per-category levels *)

Section Levels.

Lemma levelOf_set_eq (l : logger) (t : string) (level : Z) :
  levelOf (set_logLevel t level l) t = level.
Proof. unfold levelOf. simpl. by rewrite lookup_insert_eq. Qed.

Lemma levelOf_set_ne (l : logger) (t t' : string) (level : Z) :
  t' <> t -> levelOf (set_logLevel t' level l) t = levelOf l t.
Proof. intros Hne. unfold levelOf. simpl. by rewrite lookup_insert_ne. Qed.

End Levels.

(** X11.  A [Trace] call reads the level of the category it selects and
    no other entry of the level map.  Overriding the level of another
    log type leaves the call exactly as it was; overriding the level of
    the selected one makes every record of the call carry the new
    level; and when the map has no entry for the selected category the
    record is at level Info, the zero level. *)
Theorem Trace_level_override (w : World) (l : logger)
    (ctx : option Context) (begin : Z) (fc : string * Z)
    (err : option error) (t : string) :
  category l (time_Since w begin) err = Some t ->
  (forall t' level, t' <> t ->
     Trace w (set_logLevel t' level l) ctx begin fc err =
     Trace w l ctx begin fc err) /\
  (forall level r,
     r ∈ handled (events (Trace w (set_logLevel t level l) ctx begin fc err))
     -> Level r = level) /\
  (logLevel l !! t = None ->
   forall r, r ∈ handled (events (Trace w l ctx begin fc err)) ->
             Level r = LevelInfo).
Proof.
  intros Hc. split; [|split].
  - intros t' level Hne. rewrite !Trace_spec. unfold traceSpec.
    change (category (set_logLevel t' level l)) with (category l).
    rewrite Hc.
    change (nilLookup (set_logLevel t' level l)) with (nilLookup l).
    destruct (nilLookup l ctx); [done|].
    rewrite levelOf_set_ne by done. reflexivity.
  - intros level r (t0 & Hc0 & _ & -> & _)%Trace_handled.
    change (category (set_logLevel t level l)) with (category l) in Hc0.
    rewrite Hc in Hc0. injection Hc0 as <-. simpl. apply levelOf_set_eq.
  - intros Hnone r (t0 & Hc0 & _ & -> & _)%Trace_handled.
    rewrite Hc in Hc0. injection Hc0 as <-. simpl.
    unfold levelOf. by rewrite Hnone.
Qed.

Lemma Trace_level_override_witness :
  (category eager (time_Since world 0) None = Some SlowQueryLogType /\
   Trace world (set_logLevel ErrorLogType 42 eager) (Some Background) 0
         selectQuery None =
   Trace world eager (Some Background) 0 selectQuery None) /\
  (category bare (time_Since world 0) None = Some DefaultLogType /\
   logLevel bare !! DefaultLogType = None /\
   Level <$> handled (events (Trace world bare (Some Background) 0
                                selectQuery None)) = [LevelInfo]).
Proof.
  split.
  - split; [reflexivity|].
    destruct (Trace_level_override world eager (Some Background) 0
                selectQuery None SlowQueryLogType eq_refl) as (H & _).
    apply H. discriminate.
  - repeat split; reflexivity.
Defined.

(** ** A nil context *)

(** X12.  The free-form path treats a nil context as
    [context.Background()], on every logger.  [Trace] does so as well
    when no context key is registered: the call is then, event for
    event, the call under the empty context. *)
Theorem nil_context_as_background (w : World) (l : logger) :
  (forall level format args,
     log w l None level format args =
     log w l (Some Background) level format args) /\
  (contextKeys l = ∅ ->
   forall begin fc err,
     Trace w l None begin fc err =
     Trace w l (Some Background) begin fc err).
Proof.
  split; [done|]. intros Hk begin fc err.
  by apply Trace_nil_context_no_keys.
Qed.

(** ** What the sink sees *)

(** X13.  The sink is never handed a record at a level it did not
    enable.  Whenever a call hands a record to the sink, the logger's
    sink had just been asked about that record's level under the same,
    non-nil context and had enabled it; for [Trace] the provider, the
    enabled check and the record are then the whole of the call, in
    this order, and for the free-form path the enabled check and the
    record. *)
Theorem sink_gets_enabled_levels_only (w : World) (l : logger)
    (ctx : option Context) (c : Context) (r : Record_) :
  (forall begin fc err,
     EvHandle c r ∈ events (Trace w l ctx begin fc err) ->
     c = effectiveCtx ctx /\
     (exists h, sloggerHandler l = Some h /\ Enabled h c (Level r) = true) /\
     events (Trace w l ctx begin fc err) =
       [EvProvider; EvEnabled c (Level r); EvHandle c r]) /\
  (forall level format args,
     EvHandle c r ∈ events (log w l ctx level format args) ->
     c = effectiveCtx ctx /\
     (exists h, sloggerHandler l = Some h /\ Enabled h c (Level r) = true) /\
     events (log w l ctx level format args) =
       [EvEnabled c (Level r); EvHandle c r]).
Proof.
  assert (forall level format args es,
            es = events (logSpec w l ctx level format args) ->
            EvHandle c r ∈ es ->
            c = effectiveCtx ctx /\
            (exists h, sloggerHandler l = Some h /\
                       Enabled h c (Level r) = true) /\
            es = [EvEnabled c (Level r); EvHandle c r]) as Hlog.
  { intros level format args es ->. unfold logSpec.
    destruct (sloggerHandler l) as [h|]; simpl;
      [|by intros ?%elem_of_nil].
    destruct (Enabled h (effectiveCtx ctx) level) eqn:E; simpl.
    - intros [Heq|Hin]%elem_of_cons; [done|].
      apply list_elem_of_singleton in Hin. injection Hin as -> ->.
      simpl. split; [done|]. split; [by exists h|done].
    - intros [Heq|Hin]%elem_of_cons; [done|]. by apply elem_of_nil in Hin. }
  split.
  - intros begin fc err. rewrite Trace_spec. unfold traceSpec.
    destruct (category l (time_Since w begin) err) as [t|];
      [|by intros ?%elem_of_nil].
    destruct (nilLookup l ctx).
    { simpl. intros [Heq|Hin]%elem_of_cons; [done|].
      by apply elem_of_nil in Hin. }
    match goal with |- context [logSpec ?a ?b ?c ?d ?e ?f] =>
      pose proof (Hlog d e f _ eq_refl) as H;
      destruct (logSpec a b c d e f) as [es res] end.
    simpl in *. intros [Heq|Hin]%elem_of_cons; [done|].
    destruct (H Hin) as (-> & Hex & ->). done.
  - intros level format args. rewrite log_spec.
    exact (Hlog level format args _ eq_refl).
Qed.
